(** * Student activity processor: a shallow embedding of
    [streamlit_app_processing.py] and the properties of its pipeline.

    The pipeline is [process_student_data]: load a table, resolve the
    logical columns with [_find_col], keep the completed rows, normalise
    the completion date, group by (learner, date) and write one report per
    group of more than fifty rows.

    Modelling choices.
    - Text is ASCII: [str.lower], [str.strip] and [str.split] are the
      Python functions restricted to code points below 128.
    - A cell is missing ([NaN]), text or a number.  Numbers are integers
      (an [int64] column without overflow); binary64 fractions and their
      rounding are outside the model.
    - A frame is its list of labels and its rows, cell [i] of a row under
      label [i].  A label is looked up at its first occurrence: [df[c]] on a
      frame that repeats the label [c] is outside the model.
    - The pandas readers, [pd.to_datetime] and the text-to-number parser of
      [pd.to_numeric] are parameters of the development ([Pandas]).
    - [groupby] drops the rows with a missing key cell (its default
      [dropna=True]) and yields the keys in ascending order.
    - Paths are POSIX paths; [Path.suffix] is that of Python up to 3.13.
    - The file system is observed as the sequence of calls made on the
      output directory ([event]); [run] replays it on a directory. *)

From Stdlib Require Import ZArith Ascii String List Lia.
From stdpp Require Import base option list sorting strings gmap pretty.

Local Open Scope string_scope.
Local Open Scope list_scope.

(** ** Python strings *)
Module Str.

(** [c.isspace()] on ASCII: TAB, LF, VT, FF, CR, FS, GS, RS, US and space. *)
Definition isspace (a : ascii) : bool :=
  let n := nat_of_ascii a in
  (((9 <=? n) && (n <=? 13)) || ((28 <=? n) && (n <=? 32)))%nat.

Definition isupper (a : ascii) : bool :=
  let n := nat_of_ascii a in ((65 <=? n) && (n <=? 90))%nat.

Definition lower_char (a : ascii) : ascii :=
  if isupper a then ascii_of_nat (nat_of_ascii a + 32) else a.

(** [s.lower()] *)
Fixpoint lower (s : string) : string :=
  match s with
  | EmptyString => EmptyString
  | String a s' => String (lower_char a) (lower s')
  end.

(** [s.lstrip()] *)
Fixpoint lstrip (s : string) : string :=
  match s with
  | EmptyString => EmptyString
  | String a s' => if isspace a then lstrip s' else s
  end.

(** [s.rstrip()] *)
Fixpoint rstrip (s : string) : string :=
  match s with
  | EmptyString => EmptyString
  | String a s' =>
      match rstrip s' with
      | EmptyString => if isspace a then EmptyString else String a EmptyString
      | r => String a r
      end
  end.

(** [s.strip()] *)
Definition strip (s : string) : string := rstrip (lstrip s).

(** [s.split()]: the maximal runs of non-whitespace characters; [w] is the
    run being read. *)
Fixpoint split_from (w s : string) : list string :=
  match s with
  | EmptyString => if decide (w = "") then [] else [w]
  | String a s' =>
      if isspace a
      then (if decide (w = "") then split_from "" s' else w :: split_from "" s')
      else split_from (w +:+ String a "") s'
  end.

Definition split (s : string) : list string := split_from "" s.

(** ["".join(ws)] *)
Definition join (ws : list string) : string := foldr String.app "" ws.

(** ["".join(s.split())] *)
Definition squeeze (s : string) : string := join (split s).

(** [s.replace(a, b)] for one-character [a] and [b]. *)
Fixpoint replace (a b : ascii) (s : string) : string :=
  match s with
  | EmptyString => EmptyString
  | String c s' => String (if decide (c = a) then b else c) (replace a b s')
  end.

(** The characters of [s] that are not whitespace. *)
Fixpoint drop_spaces (s : string) : string :=
  match s with
  | EmptyString => EmptyString
  | String a s' => if isspace a then drop_spaces s' else String a (drop_spaces s')
  end.

End Str.

(** ** Exceptions *)

(** The payload of the two [ValueError]s raised by the module (the second
    message formats the candidate list and [list(df.columns)]), and of any
    other one raised by a reader. *)
Inductive message :=
  | UnsupportedFileType
  | NoneOfCandidates (candidates columns : list string)
  | OtherMessage (text : string).

Inductive exn :=
  | ValueError (m : message)
  | OtherError (text : string).

Definition result (A : Type) : Type := (exn + A)%type.

Definition raise {A} (e : exn) : result A := inl e.

#[global] Instance result_ret : MRet result := λ A x, inr x.
#[global] Instance result_bind : MBind result :=
  λ A B f m, match m with inl e => inl e | inr x => f x end.

(** ** Cells and frames *)

Inductive cell :=
  | NaN
  | Text (s : string)
  | Num (z : Z).

#[global] Instance cell_eq_dec : EqDecision cell.
Proof. solve_decision. Defined.

(** [str(v)], also the element-wise [astype(str)]. *)
Definition str (v : cell) : string :=
  match v with
  | NaN => "nan"
  | Text s => s
  | Num z => pretty z
  end.

Abbreviation row := (list cell).

(** A frame: the column labels and the rows, cell [i] of a row under label
    [i].  The index is positional ([ignore_index]) and not modelled. *)
Record DataFrame := {
  columns : list string;
  rows : list row }.

#[global] Instance DataFrame_eq_dec : EqDecision DataFrame.
Proof. solve_decision. Defined.

(** Frames are rectangular. *)
Definition rect (df : DataFrame) : Prop :=
  Forall (λ r : row, length r = length (columns df)) (rows df).

(** Position of the first column labelled [c]. *)
Fixpoint index (c : string) (cols : list string) : option nat :=
  match cols with
  | [] => None
  | c' :: cols' => if decide (c' = c) then Some 0 else S <$> index c cols'
  end.

(** The cell of row [r] under label [c]; a label that is not a column reads
    as missing (the reindexing of [pd.concat]). *)
Definition at_col (cols : list string) (c : string) (r : row) : cell :=
  match index c cols with
  | Some i => default NaN (r !! i)
  | None => NaN
  end.

(** [df[c]] *)
Definition get_col (df : DataFrame) (c : string) : list cell :=
  map (at_col (columns df) c) (rows df).

(** [df[c] = vs]: overwrite column [c], or append it when it is new. *)
Definition set_col (df : DataFrame) (c : string) (vs : list cell) : DataFrame :=
  match index c (columns df) with
  | Some i =>
      {| columns := columns df;
         rows := zip_with (λ (r : row) v, <[i := v]> r) (rows df) vs |}
  | None =>
      {| columns := columns df ++ [c];
         rows := zip_with (λ (r : row) v, r ++ [v]) (rows df) vs |}
  end.

(** [df[mask]] for the row-wise mask [p]. *)
Definition where_ (P : row → Prop) `{!∀ r, Decision (P r)} (df : DataFrame) : DataFrame :=
  {| columns := columns df; rows := filter P (rows df) |}.

(** [df[cs]]: the columns [cs], in that order. *)
Definition select (df : DataFrame) (cs : list string) : DataFrame :=
  {| columns := cs;
     rows := map (λ r, map (λ c, at_col (columns df) c r) cs) (rows df) |}.

(** [pd.concat([a, b], ignore_index=True)]: the labels of [a] followed by
    the new labels of [b]; cells without a source are missing. *)
Definition concat (a b : DataFrame) : DataFrame :=
  let cs := columns a ++ filter (λ c, c ∉ columns a) (columns b) in
  {| columns := cs;
     rows := map (λ r, map (λ c, at_col (columns a) c r) cs) (rows a)
          ++ map (λ r, map (λ c, at_col (columns b) c r) cs) (rows b) |}.

(** ** Column resolution *)

(** [df.columns = df.columns.str.strip()] on a copy. *)
Definition _normalize_columns (df : DataFrame) : DataFrame :=
  {| columns := map Str.strip (columns df); rows := rows df |}.

(** A Python [dict] from text to text: insertion order is kept, and setting
    a key that is present overwrites its value in place. *)
Abbreviation dict := (list (string * string)).

Fixpoint dict_set (k v : string) (d : dict) : dict :=
  match d with
  | [] => [(k, v)]
  | (k', v') :: d' =>
      if decide (k' = k) then (k, v) :: d' else (k', v') :: dict_set k v d'
  end.

Fixpoint dict_get (k : string) (d : dict) : option string :=
  match d with
  | [] => None
  | (k', v') :: d' => if decide (k' = k) then Some v' else dict_get k d'
  end.

(** [{c.lower(): c for c in cols}] *)
Definition lc_map (cols : list string) : dict :=
  fold_left (λ d c, dict_set (Str.lower c) c d) cols [].

(** First loop of [_find_col]. *)
Fixpoint find_exact (lc : dict) (candidates : list string) : option string :=
  match candidates with
  | [] => None
  | cand :: rest =>
      match dict_get (Str.lower cand) lc with
      | Some c => Some c
      | None => find_exact lc rest
      end
  end.

(** The test of the inner loop of the second pass. *)
Definition loose_match (key cand : string) : bool :=
  bool_decide (Str.squeeze key = Str.squeeze (Str.lower cand)).

(** Second loop of [_find_col]: the keys of [lc_map] in dict order, each
    against every candidate; [entries] is the part of the dict still to
    visit, and [lc_map[key]] is the value stored at the entry. *)
Fixpoint find_loose (entries : dict) (candidates : list string) : option string :=
  match entries with
  | [] => None
  | (key, c) :: rest =>
      if existsb (loose_match key) candidates then Some c
      else find_loose rest candidates
  end.

Definition _find_col (df : DataFrame) (candidates : list string) : result string :=
  let lc := lc_map (columns df) in
  match find_exact lc candidates with
  | Some c => mret c
  | None =>
      match find_loose lc candidates with
      | Some c => mret c
      | None => raise (ValueError (NoneOfCandidates candidates (columns df)))
      end
  end.

(** ** The pandas functions taken as parameters *)

(** [datetime.date] *)
Record date := { year : nat; month : nat; day : nat }.

(** [s.zfill(w)] for a string of digits. *)
Definition zfill (w : nat) (s : string) : string :=
  String.concat "" (replicate (w - String.length s) "0") +:+ s.

(** The cells of [pd.to_datetime(...).dt.date.astype(str)]: ISO format for
    a date, ["NaT"] for a value that did not parse. *)
Definition date_str (d : option date) : string :=
  match d with
  | Some d =>
      zfill 4 (pretty (year d)) +:+ "-" +:+ zfill 2 (pretty (month d))
        +:+ "-" +:+ zfill 2 (pretty (day d))
  | None => "NaT"
  end.

(** What the development assumes of pandas: the two readers return a
    rectangular frame or raise; [to_datetime] is
    [pd.to_datetime(series, errors="coerce").dt.date], one result per cell
    ([None] is [NaT]); [parse_number] is the text parser of
    [pd.to_numeric], [None] where the text is not a number. *)
Record Pandas := {
  read_excel : string → result DataFrame;
  read_csv : string → result DataFrame;
  to_datetime : list cell → list (option date);
  parse_number : string → option Z;
  read_excel_rect : ∀ path df, read_excel path = inr df → rect df;
  read_csv_rect : ∀ path df, read_csv path = inr df → rect df;
  to_datetime_length : ∀ vs, length (to_datetime vs) = length vs }.

(** One cell of [pd.to_numeric(series, errors="coerce")]: [None] is NaN. *)
Definition to_numeric (pd : Pandas) (v : cell) : option Z :=
  match v with
  | NaN => None
  | Text s => parse_number pd s
  | Num z => Some z
  end.

(** [series.fillna(0)] on the result of [to_numeric]. *)
Definition fillna0 (o : option Z) : cell := Num (default 0%Z o).

(** [series.sum()]: missing cells are skipped; text does not occur in the
    numeric series it is applied to. *)
Definition series_sum (vs : list cell) : Z :=
  foldr (λ v acc, match v with Num z => (z + acc)%Z | _ => acc end) 0%Z vs.

(** ** Paths *)

Fixpoint split_on (sep : ascii) (w s : string) : list string :=
  match s with
  | EmptyString => [w]
  | String a s' =>
      if decide (a = sep) then w :: split_on sep "" s'
      else split_on sep (w +:+ String a "") s'
  end.

(** [Path(p).name] on POSIX: the last component, empty and ["."] components
    being dropped by the parser. *)
Definition path_name (p : string) : string :=
  default "" (last (filter (λ part, part ≠ "" ∧ part ≠ ".") (split_on "/" "" p))).

(** [name.rfind(".")], [None] for -1. *)
Fixpoint rfind_dot (s : string) : option nat :=
  match s with
  | EmptyString => None
  | String a s' =>
      match rfind_dot s' with
      | Some i => Some (S i)
      | None => if decide (a = "."%char) then Some 0 else None
      end
  end.

(** [Path(p).suffix]: [name[i:]] when [0 < i < len(name) - 1]. *)
Definition path_suffix (p : string) : string :=
  let name := path_name p in
  match rfind_dot name with
  | Some i =>
      if ((0 <? i) && (S i <? String.length name))%nat
      then String.substring i (String.length name - i) name
      else ""
  | None => ""
  end.

(** ** Effects on the output directory *)

Inductive event :=
  | Makedirs
  | ToExcel (filename : string) (data : DataFrame).

#[global] Instance event_eq_dec : EqDecision event.
Proof. solve_decision. Defined.

(** The output directory: absent, or the files it holds by name. *)
Abbreviation directory := (option (gmap string DataFrame)).

(** [os.makedirs(d, exist_ok=True)] creates the directory when absent;
    [to_excel] creates or replaces one file of an existing directory. *)
Definition step (d : directory) (e : event) : directory :=
  match e, d with
  | Makedirs, None => Some ∅
  | Makedirs, Some files => Some files
  | ToExcel f data, Some files => Some (<[f := data]> files)
  | ToExcel _ _, None => None
  end.

Definition run (evs : list event) (d : directory) : directory := foldl step d evs.

(** Computations that call the file system and may raise: the calls made
    so far are threaded through. *)
Definition io (A : Type) : Type := list event → list event * result A.

#[global] Instance io_ret : MRet io := λ A x tr, (tr, inr x).
#[global] Instance io_bind : MBind io :=
  λ A B f m tr,
    match m tr with
    | (tr', inl e) => (tr', inl e)
    | (tr', inr x) => f x tr'
    end.

Definition emit (e : event) : io () := λ tr, (tr ++ [e], inr ()).
Definition lift {A} (r : result A) : io A := λ tr, (tr, r).

(** ** The pipeline *)

(** The physical columns bound by [process_student_data]. *)
Record resolved := {
  col_transcript : option string;
  col_name : string;
  col_learner : string;
  col_date : string;
  col_duration : string;
  col_title : string;
  col_activity_id : string }.

(** Lines 48-54: the reader is chosen by the lower-cased suffix. *)
Definition load (pd : Pandas) (input_file : string) : result DataFrame :=
  let suffix := Str.lower (path_suffix input_file) in
  if bool_decide (suffix ∈ [".xlsx"; ".xls"]) then read_excel pd input_file
  else if bool_decide (suffix = ".csv") then read_csv pd input_file
  else raise (ValueError UnsupportedFileType).

(** Lines 58-61: [try: ... except ValueError: col_transcript = None]. *)
Definition find_transcript (df : DataFrame) : result (option string) :=
  match _find_col df ["Transcript status"] with
  | inr c => mret (Some c)
  | inl (ValueError _) => mret None
  | inl e => raise e
  end.

(** Lines 58-68. *)
Definition resolve (df : DataFrame) : result resolved :=
  ct ← find_transcript df;
  cn ← _find_col df ["Learner - Name"];
  cl ← _find_col df ["Learner - ID"];
  cd ← _find_col df ["Completion Date"];
  cu ← _find_col df ["Learning activity - Duration"];
  ci ← _find_col df ["Learning activity - Title"];
  ca ← _find_col df ["Learning activity - ID"];
  mret {| col_transcript := ct; col_name := cn; col_learner := cl; col_date := cd;
          col_duration := cu; col_title := ci; col_activity_id := ca |}.

(** Line 71: [.astype(str).str.lower().str.strip()] on one cell. *)
Definition status_norm (v : cell) : string := Str.strip (Str.lower (str v)).

(** Lines 70-72; [if col_transcript:] is false for [None] and for [""]. *)
Definition filter_completed (ct : option string) (df : DataFrame) : DataFrame :=
  match ct with
  | Some c =>
      if decide (c = "") then df
      else
        let df := set_col df c (map (λ v, Text (status_norm v)) (get_col df c)) in
        where_ (λ r, at_col (columns df) c r = Text "completed") df
  | None => df
  end.

(** Line 74. *)
Definition normalize_dates (pd : Pandas) (cd : string) (df : DataFrame) : DataFrame :=
  set_col df cd (map (λ d, Text (date_str d)) (to_datetime pd (get_col df cd))).

(** A group key [(learner_id, date_str)]. *)
Abbreviation key := (cell * cell)%type.

(** Order of the group keys: numbers before text before missing, numbers by
    value and text by code point, the first component first. *)
Definition cell_leb (a b : cell) : bool :=
  match a, b with
  | Num x, Num y => (x <=? y)%Z
  | Num _, _ => true
  | Text _, Num _ => false
  | Text s, Text t => String.leb s t
  | Text _, NaN => true
  | NaN, NaN => true
  | NaN, _ => false
  end.

Definition key_leb (a b : key) : bool :=
  if decide (a.1 = b.1) then cell_leb a.2 b.2 else cell_leb a.1 b.1.

(** The key of a row; a row with a missing key cell belongs to no group
    ([dropna=True]). *)
Definition key_of (cols : list string) (by1 by2 : string) (r : row) : option key :=
  let k1 := at_col cols by1 r in
  let k2 := at_col cols by2 r in
  if decide (k1 = NaN ∨ k2 = NaN) then None else Some (k1, k2).

Definition group_keys (df : DataFrame) (by1 by2 : string) : list key :=
  merge_sort (λ a b, key_leb a b) (remove_dups (omap (key_of (columns df) by1 by2) (rows df))).

(** [df.groupby([by1, by2])] as iterated by the [for] loop: the keys in
    ascending order, each with the rows of [df] that carry it, in the order
    of [df]. *)
Definition groupby (df : DataFrame) (by1 by2 : string) : list (key * DataFrame) :=
  map (λ k, (k, where_ (λ r, key_of (columns df) by1 by2 r = Some k) df))
      (group_keys df by1 by2).

(** Lines 83-92: the frame written for a group. *)
Definition report (pd : Pandas) (c : resolved) (group : DataFrame) : DataFrame :=
  let learner_data :=
    select group [col_name c; col_title c; col_learner c; col_activity_id c;
                  col_duration c; col_date c] in
  let learner_data :=
    set_col learner_data (col_duration c)
      (map (λ v, fillna0 (to_numeric pd v)) (get_col learner_data (col_duration c))) in
  let total_duration := series_sum (get_col learner_data (col_duration c)) in
  let summary :=
    {| columns := [col_title c; col_duration c];
       rows := [[Text "TOTAL"; Num total_duration]] |} in
  concat learner_data summary.

(** Lines 94-96. *)
Definition filename (learner_id date_str : cell) : string :=
  let safe_learner := Str.replace " " "_" (str learner_id) in
  let safe_date := Str.replace ":" "-" (Str.replace " " "_" (str date_str)) in
  "learner_" +:+ safe_learner +:+ "_" +:+ safe_date +:+ ".xlsx".

(** Lines 79-98: one iteration; [files_written] is the counter on entry. *)
Definition loop_body (pd : Pandas) (c : resolved) (files_written : nat)
    (g : key * DataFrame) : io nat :=
  let '((learner_id, date_str), group) := g in
  if (length (rows group) <=? 50)%nat then mret files_written
  else
    _ ← emit (ToExcel (filename learner_id date_str) (report pd c group));
    mret (S files_written).

Fixpoint for_each (pd : Pandas) (c : resolved) (grouped : list (key * DataFrame))
    (files_written : nat) : io nat :=
  match grouped with
  | [] => mret files_written
  | g :: rest =>
      n ← loop_body pd c files_written g;
      for_each pd c rest n
  end.

(** Lines 56-74: the frame that is grouped. *)
Definition prepare (pd : Pandas) (c : resolved) (df : DataFrame) : DataFrame :=
  normalize_dates pd (col_date c) (filter_completed (col_transcript c) df).

Definition process_student_data (pd : Pandas) (input_file : string) : io nat :=
  _ ← emit Makedirs;
  df ← lift (load pd input_file);
  let df := _normalize_columns df in
  c ← lift (resolve df);
  let df := prepare pd c df in
  let grouped := groupby df (col_learner c) (col_date c) in
  for_each pd c grouped 0.

(** ** A small pandas for running the pipeline on examples *)
Module Demo.

Definition digit (a : ascii) : option nat :=
  let n := nat_of_ascii a in
  if ((48 <=? n) && (n <=? 57))%nat then Some (n - 48) else None.

Fixpoint digits (s : string) (acc : nat) : option nat :=
  match s with
  | EmptyString => Some acc
  | String a s' => d ← digit a; digits s' (10 * acc + d)
  end.

(** Decimal integers, with an optional sign. *)
Definition parse_int (s : string) : option Z :=
  match s with
  | EmptyString => None
  | String "-" (String a s') => Z.opp <$> (Z.of_nat <$> digits (String a s') 0)
  | _ => Z.of_nat <$> digits s 0
  end.

(** Dates written [YYYY-MM-DD]; anything else is [NaT]. *)
Definition parse_iso (v : cell) : option date :=
  match v with
  | Text s =>
      if bool_decide (String.length s = 10 ∧ String.get 4 s = Some "-"%char
                      ∧ String.get 7 s = Some "-"%char)
      then y ← digits (String.substring 0 4 s) 0;
           m ← digits (String.substring 5 2 s) 0;
           d ← digits (String.substring 8 2 s) 0;
           Some {| year := y; month := m; day := d |}
      else None
  | _ => None
  end.

(** The files that can be read, by path; ragged content does not load. *)
Fixpoint reader (files : list (string * DataFrame)) (path : string) : result DataFrame :=
  match files with
  | [] => raise (OtherError "No such file or directory")
  | (p, df) :: files' =>
      if decide (p = path)
      then (if decide (rect df) then inr df else raise (OtherError "ragged file"))
      else reader files' path
  end.

Lemma reader_rect files path df : reader files path = inr df → rect df.
Proof.
  induction files as [|[p df'] files IH]; simpl; [discriminate|].
  case_decide; [|done]. case_decide; [|discriminate]. by intros [= <-].
Qed.

Definition pandas (files : list (string * DataFrame)) : Pandas :=
  {| read_excel := reader files;
     read_csv := reader files;
     to_datetime := map parse_iso;
     parse_number := parse_int;
     read_excel_rect := reader_rect files;
     read_csv_rect := reader_rect files;
     to_datetime_length := length_map parse_iso |}.

(** A header as exported, with stray spaces and case. *)
Definition header : list string :=
  ["Learner - Name "; "learner -id"; "Completion Date"; " Learning activity - Duration";
   "Learning activity - Title"; "Learning activity - ID"; "Transcript Status"].

(** The columns bound on [header]. *)
Definition bound : resolved :=
  {| col_transcript := Some "Transcript Status";
     col_name := "Learner - Name";
     col_learner := "learner -id";
     col_date := "Completion Date";
     col_duration := "Learning activity - Duration";
     col_title := "Learning activity - Title";
     col_activity_id := "Learning activity - ID" |}.

(** An activity record of [learner] on [day], two hours long. *)
Definition activity (learner day status : string) : row :=
  [Text "Ann"; Text learner; Text day; Text "2"; Text "Course"; Num 7; Text status].

Definition activities (n : nat) (learner day : string) : list row :=
  replicate n (activity learner day " Completed").

Definition day : string := "2024-01-05".

(** Fifty-one completed activities of L1 and one failed, fifty of L2. *)
Definition burst : DataFrame :=
  {| columns := header;
     rows := activities 51 "L1" day ++ [activity "L1" day "Failed"]
             ++ activities 50 "L2" day |}.


(** The report of that group. *)
Definition burst_L1_report : DataFrame :=
  {| columns := ["Learner - Name"; "Learning activity - Title"; "learner -id";
                 "Learning activity - ID"; "Learning activity - Duration";
                 "Completion Date"];
     rows := replicate 51 [Text "Ann"; Text "Course"; Text "L1"; Num 7; Num 2; Text day]
             ++ [[NaN; Text "TOTAL"; NaN; NaN; Num 102; NaN]] |}.

(** A learner id with a colon. *)
Definition colon : DataFrame :=
  {| columns := header; rows := activities 51 "a:b" day |}.

(** Sixty activities of L1 and ten of L2 on one day. *)
Definition scenario : DataFrame :=
  {| columns := header; rows := activities 60 "L1" day ++ activities 10 "L2" day |}.

(** Two learner ids that differ by a space and an underscore. *)
Definition twins : DataFrame :=
  {| columns := header; rows := activities 51 "a b" day ++ activities 51 "a_b" day |}.

Definition files : list (string * DataFrame) :=
  [("burst.csv", burst); ("colon.csv", colon); ("twins.xlsx", twins);
   ("scenario.CSV", scenario);
   ("empty.csv", {| columns := header; rows := [] |})].

End Demo.

(** ** Column resolution as a specification *)

(** The last column of [cols] whose lower-cased label is [k]. *)
Definition last_lower (cols : list string) (k : string) : option string :=
  last (filter (λ c, Str.lower c = k) cols).

(** A column and a candidate agree up to case. *)
Definition same_nocase (cand c : string) : Prop := Str.lower c = Str.lower cand.

#[global] Instance same_nocase_dec cand c : Decision (same_nocase cand c).
Proof. unfold same_nocase. apply _. Defined.

(** A column and a candidate agree up to case once all whitespace is
    removed from both. *)
Definition same_loose (c cand : string) : Prop :=
  Str.drop_spaces (Str.lower c) = Str.drop_spaces (Str.lower cand).

#[global] Instance same_loose_dec c cand : Decision (same_loose c cand).
Proof. unfold same_loose. apply _. Defined.

(** Resolution in two passes: the first candidate, in candidate order, that
    some column equals up to case; failing that, the first column, in table
    order, that some candidate equals up to case and whitespace.  The
    column returned is the last one with the lower-cased label of the
    match (there is one, the match itself if no other); without a match in
    either pass the error lists the candidates and the columns. *)
Definition resolution (cols candidates : list string) : result string :=
  match list_find (λ cand, Exists (same_nocase cand) cols) candidates with
  | Some (_, cand) =>
      from_option inr (raise (ValueError (NoneOfCandidates candidates cols)))
        (last_lower cols (Str.lower cand))
  | None =>
      match list_find (λ c, Exists (same_loose c) candidates) cols with
      | Some (_, c) =>
          from_option inr (raise (ValueError (NoneOfCandidates candidates cols)))
            (last_lower cols (Str.lower c))
      | None => raise (ValueError (NoneOfCandidates candidates cols))
      end
  end.

(** ** Vocabulary of the statements *)

(** A label with case and whitespace removed. *)
Definition tag (c : string) : string := Str.drop_spaces (Str.lower c).

(** The key test of the second pass, on a lower-cased label. *)
Definition loose_key (candidates : list string) (k : string) : Prop :=
  Exists (λ cand, Str.drop_spaces k = Str.drop_spaces (Str.lower cand)) candidates.

#[global] Instance loose_key_dec candidates k : Decision (loose_key candidates k).
Proof. unfold loose_key. apply _. Defined.

(** The labels selected on line 84, in that order. *)
Definition output_columns (c : resolved) : list string :=
  [col_name c; col_title c; col_learner c; col_activity_id c; col_duration c; col_date c].

(** The row written for the row [r] of a group with labels [cols]. *)
Definition out_row (pd : Pandas) (c : resolved) (cols : list string) (r : row) : row :=
  [at_col cols (col_name c) r; at_col cols (col_title c) r; at_col cols (col_learner c) r;
   at_col cols (col_activity_id c) r; fillna0 (to_numeric pd (at_col cols (col_duration c) r));
   at_col cols (col_date c) r].

(** The summary row, under the labels [output_columns]. *)
Definition total_row (total : Z) : row := [NaN; Text "TOTAL"; NaN; NaN; Num total; NaN].

(** The numeric duration of a source row: the sum is taken over these. *)
Definition duration (pd : Pandas) (c : resolved) (cols : list string) (r : row) : Z :=
  default 0%Z (to_numeric pd (at_col cols (col_duration c) r)).

Definition sum_Z (zs : list Z) : Z := foldr Z.add 0%Z zs.

(** The threshold of line 80. *)
Definition qualifies (g : key * DataFrame) : Prop := 50 < length (rows g.2).

#[global] Instance qualifies_dec g : Decision (qualifies g).
Proof. unfold qualifies. apply _. Defined.

(** The call of line 97 for a group. *)
Definition to_excel (pd : Pandas) (c : resolved) (g : key * DataFrame) : event :=
  ToExcel (filename g.1.1 g.1.2) (report pd c g.2).

(** The input path has one of the extensions that [load] reads. *)
Definition supported (input_file : string) : Prop :=
  Str.lower (path_suffix input_file) ∈ [".xlsx"; ".xls"; ".csv"].

#[global] Instance supported_dec input_file : Decision (supported input_file).
Proof. unfold supported. apply _. Defined.

(** The fallback rule read literally: whenever no candidate equals a column
    up to case, the column returned is the first one, in table order, that
    some candidate equals up to case and whitespace. *)
Definition first_matching_column_wins : Prop :=
  ∀ df candidates c,
    candidates ≠ [] →
    list_find (λ cand, Exists (same_nocase cand) (columns df)) candidates = None →
    _find_col df candidates = inr c →
    ∃ i, list_find (λ x, Exists (same_loose x) candidates) (columns df) = Some (i, c).

(** An unsupported extension read literally: the run leaves the output
    directory as it found it. *)
Definition unsupported_leaves_directory : Prop :=
  ∀ pd input_file d,
    ¬ supported input_file →
    run (process_student_data pd input_file []).1 d = d.

Definition event_filename (e : event) : option string :=
  match e with
  | Makedirs => None
  | ToExcel f _ => Some f
  end.

Definition event_columns (e : event) : option (list string) :=
  match e with
  | Makedirs => None
  | ToExcel _ data => Some (columns data)
  end.

(** The groups of a run on the loaded frame [df]: those of the prepared
    frame. *)
Definition groups_of (pd : Pandas) (c : resolved) (df : DataFrame) : list (key * DataFrame) :=
  groupby (prepare pd c df) (col_learner c) (col_date c).

(** The frame after the filter stage. *)
Definition filtered (c : resolved) (df : DataFrame) : DataFrame :=
  filter_completed (col_transcript c) df.

(** The written row [out] comes from the loaded row [r1]: row [j] of the
    filtered frame is [r1] up to its status cell, [d] is the date parsed at
    that position, and [out] holds the cells of [r1] under the name, title,
    learner and activity labels, its numeric duration and the text of [d]. *)
Definition origin (pd : Pandas) (c : resolved) (df : DataFrame) (r1 : row)
    (j : nat) (d : option date) (out : row) : Prop :=
  let cols := columns df in
  r1 ∈ rows df
  ∧ get_col (filtered c df) (col_date c) !! j = Some (at_col cols (col_date c) r1)
  ∧ to_datetime pd (get_col (filtered c df) (col_date c)) !! j = Some d
  ∧ out = [at_col cols (col_name c) r1; at_col cols (col_title c) r1;
           at_col cols (col_learner c) r1; at_col cols (col_activity_id c) r1;
           Num (duration pd c cols r1); Text (date_str d)]
  ∧ ∀ ct, col_transcript c = Some ct → status_norm (at_col cols ct r1) = "completed".

(** What [resolve] guarantees of the columns it binds. *)
Record resolved_ok (df : DataFrame) (c : resolved) : Prop := {
  ok_columns : Forall (λ x, x ∈ columns df) (output_columns c);
  ok_nodup : NoDup (output_columns c);
  ok_transcript : ∀ ct, col_transcript c = Some ct →
    ct ∈ columns df ∧ ct ≠ "" ∧ ct ∉ output_columns c }.

(** * Properties *)

(** ** Strings *)
Section strings.
Implicit Types s w : string.

Lemma app_cons a s w : String a s +:+ w = String a (s +:+ w).
Proof. reflexivity. Qed.

Lemma app_assoc_s s1 s2 s3 : (s1 +:+ s2) +:+ s3 = s1 +:+ (s2 +:+ s3).
Proof. induction s1 as [|a s1 IH]; [done | by rewrite !app_cons, IH]. Qed.

Lemma join_split_from w s :
  Str.join (Str.split_from w s) = w +:+ Str.drop_spaces s.
Proof.
  revert w. induction s as [|a s IH]; intros w; simpl.
  - case_decide; simpl; [by subst | done].
  - destruct (Str.isspace a).
    + case_decide; simpl; rewrite IH; [by subst | done].
    + by rewrite IH, app_assoc_s.
Qed.

(** ["".join(s.split())] removes exactly the whitespace of [s]. *)
Lemma squeeze_drop_spaces s : Str.squeeze s = Str.drop_spaces s.
Proof. unfold Str.squeeze, Str.split. by rewrite join_split_from. Qed.

Lemma isspace_lower_char a : Str.isspace (Str.lower_char a) = Str.isspace a.
Proof. by destruct a as [[] [] [] [] [] [] [] []]. Qed.

Lemma lstrip_lower s : Str.lstrip (Str.lower s) = Str.lower (Str.lstrip s).
Proof.
  induction s as [|a s IH]; simpl; [done|].
  rewrite isspace_lower_char. by destruct (Str.isspace a).
Qed.

Lemma rstrip_lower s : Str.rstrip (Str.lower s) = Str.lower (Str.rstrip s).
Proof.
  induction s as [|a s IH]; simpl; [done|].
  rewrite IH, isspace_lower_char.
  destruct (Str.rstrip s); simpl; [by destruct (Str.isspace a)|done].
Qed.

(** Trimming and lower-casing commute. *)
Lemma strip_lower s : Str.strip (Str.lower s) = Str.lower (Str.strip s).
Proof. unfold Str.strip. by rewrite lstrip_lower, rstrip_lower. Qed.

End strings.

(** ** The dict of lower-cased labels *)
Section lc_map.
Implicit Types (d : dict) (cols : list string) (k c : string).

Lemma dict_get_set k k' v d :
  dict_get k (dict_set k' v d) = if decide (k' = k) then Some v else dict_get k d.
Proof.
  induction d as [|[k0 v0] d IH]; simpl.
  - done.
  - destruct (decide (k0 = k')) as [->|]; simpl.
    + by destruct (decide (k' = k)).
    + rewrite IH. destruct (decide (k0 = k)), (decide (k' = k)); congruence.
Qed.

Lemma dict_keys_set k v d :
  (dict_set k v d).*1 = if decide (k ∈ d.*1) then d.*1 else d.*1 ++ [k].
Proof.
  induction d as [|[k0 v0] d IH]; csimpl.
  - done.
  - destruct (decide (k0 = k)) as [->|Hne]; csimpl.
    + by rewrite decide_True by apply list_elem_of_here.
    + rewrite IH. destruct (decide (k ∈ d.*1)) as [Hin|Hin].
      * by rewrite decide_True by by apply list_elem_of_further.
      * rewrite decide_False; [done|].
        intros [?|?]%elem_of_cons; congruence.
Qed.

(** Looking a key up after the comprehension: the last column with that
    lower-cased label wins. *)
Lemma dict_get_fold k cols d :
  dict_get k (fold_left (λ d c, dict_set (Str.lower c) c d) cols d)
  = match last_lower cols k with Some c => Some c | None => dict_get k d end.
Proof.
  revert d. induction cols as [|c cols IH]; intros d; simpl; [done|].
  rewrite IH. unfold last_lower. rewrite filter_cons.
  rewrite dict_get_set. case_decide as Hk; simpl.
  - destruct (filter _ cols) as [|x l] eqn:E; simpl; [done|].
    destruct (last (x :: l)) eqn:El; [done|]. by apply last_None in El.
  - done.
Qed.

Lemma dict_get_lc_map k cols : dict_get k (lc_map cols) = last_lower cols k.
Proof. unfold lc_map. rewrite (dict_get_fold k cols []). by destruct (last_lower cols k). Qed.

Lemma last_lower_Some cols k c :
  last_lower cols k = Some c → c ∈ cols ∧ Str.lower c = k.
Proof.
  unfold last_lower. intros H.
  assert (c ∈ filter (λ c, Str.lower c = k) cols) as Hin.
  { destruct (filter _ cols) as [|x l] using rev_ind; [done|].
    rewrite last_snoc in H. injection H as ->. set_solver. }
  apply list_elem_of_filter in Hin. tauto.
Qed.

Lemma last_lower_is_Some cols c : c ∈ cols → is_Some (last_lower cols (Str.lower c)).
Proof.
  intros Hin. unfold last_lower.
  assert (c ∈ filter (λ c', Str.lower c' = Str.lower c) cols) as Hf
    by (apply list_elem_of_filter; done).
  destruct (filter _ cols) as [|x l] using rev_ind; [by apply elem_of_nil in Hf|].
  rewrite last_snoc. eauto.
Qed.

Lemma Exists_same_nocase cols cand :
  Exists (same_nocase cand) cols ↔ is_Some (last_lower cols (Str.lower cand)).
Proof.
  split.
  - intros (c & Hin & Hc)%Exists_exists. rewrite <-Hc. by apply last_lower_is_Some.
  - intros [c (Hin & Hc)%last_lower_Some]. apply Exists_exists. by exists c.
Qed.

(** The first loop returns the column of the first candidate that some
    column equals up to case. *)
Lemma find_exact_lc_map cols candidates :
  find_exact (lc_map cols) candidates
  = match list_find (λ cand, Exists (same_nocase cand) cols) candidates with
    | Some (_, cand) => last_lower cols (Str.lower cand)
    | None => None
    end.
Proof.
  induction candidates as [|cand rest IH]; simpl; [done|].
  rewrite dict_get_lc_map. case_decide as Hex.
  - apply Exists_same_nocase in Hex as [c ->]. done.
  - destruct (last_lower cols (Str.lower cand)) as [c|] eqn:E.
    { destruct Hex. apply Exists_same_nocase. by rewrite E. }
    rewrite IH. by destruct (list_find _ rest) as [[i x]|].
Qed.

Lemma loose_match_spec key cand :
  loose_match key cand = true
  ↔ Str.drop_spaces key = Str.drop_spaces (Str.lower cand).
Proof.
  unfold loose_match. rewrite !squeeze_drop_spaces.
  rewrite bool_decide_eq_true. done.
Qed.

Lemma existsb_loose_match candidates key :
  existsb (loose_match key) candidates = true ↔ loose_key candidates key.
Proof.
  unfold loose_key. rewrite existsb_exists, Exists_exists.
  split; intros (cand & Hin & H); exists cand; split;
    solve [by apply list_elem_of_In | by apply loose_match_spec].
Qed.

(** The second loop visits the keys in dict order and returns the value
    of the first key that some candidate matches. *)
Lemma find_loose_keys d candidates :
  find_loose d candidates
  = match list_find (loose_key candidates) d.*1 with
    | Some (_, k) => dict_get k d
    | None => None
    end.
Proof.
  induction d as [|[key c] d IH]; csimpl; [done|].
  destruct (existsb (loose_match key) candidates) eqn:E.
  - apply existsb_loose_match in E. rewrite decide_True by done.
    by rewrite decide_True.
  - rewrite decide_False.
    2:{ intros H%existsb_loose_match. congruence. }
    rewrite IH. destruct (list_find _ d.*1) as [[i k]|] eqn:F; csimpl; [|done].
    rewrite decide_False; [done|]. intros ->.
    apply list_find_Some in F as (_ & F%existsb_loose_match & _). congruence.
Qed.

(** The keys of the comprehension, in dict order, are the lower-cased
    labels in order of first occurrence: the first key with a property is
    the lower-cased first column with it. *)
Lemma list_find_keys_fold (P : string → Prop) `{!∀ k, Decision (P k)} cols d :
  snd <$> list_find P (fold_left (λ d c, dict_set (Str.lower c) c d) cols d).*1
  = match snd <$> list_find P d.*1 with
    | Some k => Some k
    | None => Str.lower <$> (snd <$> list_find (λ c, P (Str.lower c)) cols)
    end.
Proof.
  revert d. induction cols as [|c cols IH]; intros d; simpl.
  - by destruct (list_find P d.*1).
  - rewrite IH, dict_keys_set.
    destruct (list_find P d.*1) as [[i k]|] eqn:F; csimpl.
    + case_decide; [by rewrite F|].
      by erewrite list_find_app_l by done.
    + destruct (decide (Str.lower c ∈ d.*1)) as [Hin|Hin].
      * rewrite F. csimpl. rewrite decide_False; [by destruct (list_find _ cols)|].
        apply list_find_None in F. rewrite Forall_forall in F. by apply F.
      * rewrite list_find_app_r by done. csimpl.
        case_decide; csimpl; [done|]. by destruct (list_find _ cols).
Qed.

Lemma find_loose_lc_map cols candidates :
  find_loose (lc_map cols) candidates
  = match list_find (λ c, Exists (same_loose c) candidates) cols with
    | Some (_, c) => last_lower cols (Str.lower c)
    | None => None
    end.
Proof.
  rewrite find_loose_keys.
  pose proof (list_find_keys_fold (loose_key candidates) cols []) as H.
  fold (lc_map cols) in H. csimpl in H.
  rewrite (list_find_ext (λ c, Exists (same_loose c) candidates)
             (λ c, loose_key candidates (Str.lower c))) by done.
  destruct (list_find _ (lc_map cols).*1) as [[i k]|],
    (list_find _ cols) as [[j c]|]; csimpl in H; simplify_eq; [|done].
  apply dict_get_lc_map.
Qed.

(** [_find_col] computes the two-pass resolution. *)
Lemma find_col_resolution df candidates :
  _find_col df candidates = resolution (columns df) candidates.
Proof.
  unfold _find_col, resolution.
  rewrite find_exact_lc_map, find_loose_lc_map.
  destruct (list_find _ candidates) as [[i cand]|] eqn:F.
  - apply list_find_Some in F as (_ & [c Hc]%Exists_same_nocase & _).
    by rewrite Hc.
  - destruct (list_find _ (columns df)) as [[j c]|] eqn:G; [|done].
    apply list_find_Some in G as (Hin%list_elem_of_lookup_2 & _ & _).
    apply last_lower_is_Some in Hin as [c' Hc']. by rewrite Hc'.
Qed.

(** A resolved column is a column of the frame, and equals one of the
    candidates up to case and whitespace. *)
Lemma find_col_sound df candidates c :
  _find_col df candidates = inr c →
  c ∈ columns df ∧ Exists (same_loose c) candidates.
Proof.
  rewrite find_col_resolution. unfold resolution.
  destruct (list_find _ candidates) as [[i cand]|] eqn:F.
  - apply list_find_Some in F as (Hin%list_elem_of_lookup_2 & _ & _).
    destruct (last_lower _ _) as [c'|] eqn:E; simpl; [|discriminate].
    intros [= ->]. apply last_lower_Some in E as [? E]. split; [done|].
    apply Exists_exists. exists cand. split; [done|]. unfold same_loose. by rewrite E.
  - destruct (list_find _ (columns df)) as [[j c0]|] eqn:G; [|discriminate].
    apply list_find_Some in G as (_ & G & _).
    destruct (last_lower _ _) as [c'|] eqn:E; simpl; [|discriminate].
    intros [= ->]. apply last_lower_Some in E as [? E]. split; [done|].
    eapply Exists_impl; [exact G|]. intros cand. unfold same_loose. by rewrite E.
Qed.
End lc_map.

(** ** Frames *)
Section frames.
Implicit Types (df : DataFrame) (cols : list string) (c : string) (r : row).

Lemma index_Some c cols i : index c cols = Some i → cols !! i = Some c.
Proof.
  revert i. induction cols as [|c' cols IH]; intros i; simpl; [done|].
  case_decide as Heq; [by intros [= <-]; subst|].
  destruct (index c cols) as [j|]; csimpl; [|done].
  intros [= <-]. by apply IH.
Qed.

Lemma index_is_Some c cols : c ∈ cols → is_Some (index c cols).
Proof.
  induction 1 as [c cols|c c' cols _ IH]; simpl.
  - rewrite decide_True by done. eauto.
  - case_decide; [eauto|]. destruct IH as [i ->]. csimpl. eauto.
Qed.

Lemma index_inj c c' cols i : index c cols = Some i → index c' cols = Some i → c = c'.
Proof. intros H1%index_Some H2%index_Some. congruence. Qed.

Lemma at_col_insert_eq cols c i r v :
  index c cols = Some i → i < length r → at_col cols c (<[i := v]> r) = v.
Proof.
  intros Hi Hlt. unfold at_col. rewrite Hi.
  by rewrite list_lookup_insert_eq.
Qed.

Lemma at_col_insert_ne cols c c' i r v :
  index c cols = Some i → c' ≠ c → at_col cols c' (<[i := v]> r) = at_col cols c' r.
Proof.
  intros Hi Hne. unfold at_col. destruct (index c' cols) as [j|] eqn:Hj; [|done].
  rewrite list_lookup_insert_ne; [done|]. intros ->. eauto using index_inj.
Qed.

Lemma zip_with_map_diag {A B C} (g : A → B → C) (h : A → B) (l : list A) :
  zip_with g l (map h l) = map (λ x, g x (h x)) l.
Proof. induction l; simpl; congruence. Qed.

(** Overwriting a column with a function of the cells of a column. *)
Lemma set_col_map df c c0 i (f : cell → cell) :
  index c (columns df) = Some i →
  set_col df c (map f (get_col df c0))
  = {| columns := columns df;
       rows := map (λ r, <[i := f (at_col (columns df) c0 r)]> r) (rows df) |}.
Proof.
  intros Hi. unfold set_col, get_col. rewrite Hi. f_equal.
  by rewrite map_map, zip_with_map_diag.
Qed.

Lemma rect_normalize_columns df : rect df → rect (_normalize_columns df).
Proof. unfold rect. simpl. by rewrite length_map. Qed.

Lemma rect_where (P : row → Prop) `{!∀ r, Decision (P r)} df :
  rect df → rect (where_ P df).
Proof.
  unfold rect. simpl. rewrite !Forall_forall.
  intros Hall r Hr%list_elem_of_filter. apply Hall, Hr.
Qed.

Lemma rect_set_col df c vs : c ∈ columns df → rect df → rect (set_col df c vs).
Proof.
  intros [i Hi]%index_is_Some. unfold rect, set_col. rewrite Hi. simpl.
  rewrite !Forall_forall. intros Hall r (j & Hj)%list_elem_of_lookup_1.
  apply lookup_zip_with_Some in Hj as (r0 & v & -> & Hr0 & _).
  rewrite length_insert. eapply Hall, list_elem_of_lookup_2, Hr0.
Qed.

Lemma columns_set_col df c vs : c ∈ columns df → columns (set_col df c vs) = columns df.
Proof. intros [i Hi]%index_is_Some. unfold set_col. by rewrite Hi. Qed.
End frames.

(** Membership in a list written out. *)
Ltac in_list :=
  repeat first [apply list_elem_of_here | apply list_elem_of_further].

(** Unfolding of the [result] monad. *)
Ltac result_simpl :=
  cbv [mret mbind result_ret result_bind raise] in *; simpl in *.

(** ** The bound columns *)
Section resolve.
Implicit Types (df : DataFrame) (c : resolved).

Lemma find_col_tag df cand x :
  _find_col df [cand] = inr x → x ∈ columns df ∧ tag x = tag cand.
Proof.
  intros [Hin Hex]%find_col_sound. split; [done|].
  apply Exists_cons in Hex as [H|H%Exists_nil]; done.
Qed.

Lemma find_transcript_Some df ct :
  find_transcript df = inr (Some ct) → _find_col df ["Transcript status"] = inr ct.
Proof.
  unfold find_transcript. destruct (_find_col _ _) as [[]|]; result_simpl; congruence.
Qed.

(** Column resolution of the optional status column never raises. *)
Lemma find_transcript_total df : ∃ o, find_transcript df = inr o.
Proof.
  unfold find_transcript. rewrite find_col_resolution. unfold resolution.
  repeat (destruct (list_find _ _) as [[? ?]|]);
    repeat (destruct (last_lower _ _)); result_simpl; eauto.
Qed.

Lemma find_transcript_None df :
  find_transcript df = inr None ↔ ∃ e, _find_col df ["Transcript status"] = inl e.
Proof.
  unfold find_transcript. destruct (_find_col _ _) as [e|x] eqn:E.
  - split; [eauto|]. intros _. revert E. rewrite find_col_resolution. unfold resolution.
    repeat (destruct (list_find _ _) as [[? ?]|]);
      repeat (destruct (last_lower _ _)); result_simpl; intros; by simplify_eq.
  - split; [result_simpl; discriminate|]. by intros [? ?].
Qed.

Ltac tag_ne H1 H2 :=
  let E := fresh in
  intros E; rewrite E in H1; rewrite H1 in H2; vm_compute in H2; discriminate.

Lemma resolve_ok df c : resolve df = inr c → resolved_ok df c.
Proof.
  unfold resolve.
  destruct (find_transcript df) as [|ct] eqn:Et; [discriminate|].
  destruct (_find_col df ["Learner - Name"]) as [|cn] eqn:En; [discriminate|].
  destruct (_find_col df ["Learner - ID"]) as [|cl] eqn:El; [discriminate|].
  destruct (_find_col df ["Completion Date"]) as [|cd] eqn:Ed; [discriminate|].
  destruct (_find_col df ["Learning activity - Duration"]) as [|cu] eqn:Eu;
    [discriminate|].
  destruct (_find_col df ["Learning activity - Title"]) as [|ci] eqn:Ei;
    [discriminate|].
  destruct (_find_col df ["Learning activity - ID"]) as [|ca] eqn:Ea;
    [discriminate|].
  cbv [mret mbind result_ret result_bind].
  intros [= <-].
  apply find_col_tag in En as [? Hn], El as [? Hl], Ed as [? Hd],
    Eu as [? Hu], Ei as [? Hi], Ea as [? Ha].
  split; unfold output_columns; simpl.
  - repeat constructor; done.
  - repeat (apply NoDup_cons; split); try apply NoDup_nil_2;
      rewrite ?not_elem_of_cons; repeat split; try apply not_elem_of_nil;
      first [tag_ne Hn Hi | tag_ne Hn Hl | tag_ne Hn Ha | tag_ne Hn Hu | tag_ne Hn Hd
            | tag_ne Hi Hl | tag_ne Hi Ha | tag_ne Hi Hu | tag_ne Hi Hd
            | tag_ne Hl Ha | tag_ne Hl Hu | tag_ne Hl Hd
            | tag_ne Ha Hu | tag_ne Ha Hd | tag_ne Hu Hd].
  - intros ct' ->. apply find_transcript_Some, find_col_tag in Et as [? Ht].
    split; [done|]. split; [intros ->; vm_compute in Ht; discriminate|].
    rewrite !not_elem_of_cons; repeat split; try apply not_elem_of_nil;
      first [tag_ne Ht Hn | tag_ne Ht Hi | tag_ne Ht Hl | tag_ne Ht Ha
            | tag_ne Ht Hu | tag_ne Ht Hd].
Qed.
End resolve.

(** ** The stages before grouping *)
Section stages.
Context (pd : Pandas).
Implicit Types (df : DataFrame) (c : resolved) (r : row).

Lemma index_lt df x i r :
  rect df → r ∈ rows df → index x (columns df) = Some i → i < length r.
Proof.
  intros Hrect Hr Hi%index_Some. unfold rect in Hrect. rewrite Forall_forall in Hrect.
  rewrite (Hrect r Hr). by eapply lookup_lt_Some.
Qed.

Lemma columns_filter_completed ct df :
  (∀ x, ct = Some x → x ∈ columns df) →
  columns (filter_completed ct df) = columns df.
Proof.
  intros Hct. unfold filter_completed. destruct ct as [x|]; [|done].
  case_decide; [done|]. simpl. apply columns_set_col. by apply Hct.
Qed.

Lemma rect_filter_completed ct df :
  (∀ x, ct = Some x → x ∈ columns df) → rect df → rect (filter_completed ct df).
Proof.
  intros Hct Hrect. unfold filter_completed. destruct ct as [x|]; [|done].
  case_decide; [done|]. apply rect_where, rect_set_col; [|done]. by apply Hct.
Qed.

(** A row that passes the filter comes from a loaded row whose status
    normalises to ["completed"]; only its status cell was rewritten. *)
Lemma filter_completed_rows ct df r2 :
  rect df → (∀ x, ct = Some x → x ∈ columns df) →
  r2 ∈ rows (filter_completed ct df) →
  ∃ r1, r1 ∈ rows df
    ∧ (∀ x, ct ≠ Some x → at_col (columns df) x r2 = at_col (columns df) x r1)
    ∧ (∀ x, ct = Some x → x ≠ "" →
         status_norm (at_col (columns df) x r1) = "completed").
Proof.
  intros Hrect Hct. unfold filter_completed.
  destruct ct as [x|]; [|intros ?; exists r2; naive_solver].
  case_decide as Hx; [intros ?; exists r2; naive_solver|].
  destruct (index_is_Some x (columns df)) as [i Hi]; [by apply Hct|].
  rewrite (set_col_map df x x i (λ v, Text (status_norm v)) Hi). simpl.
  intros [Hp (r1 & -> & Hr1)%list_elem_of_fmap]%list_elem_of_filter.
  exists r1. split; [done|].
  rewrite at_col_insert_eq in Hp by eauto using index_lt.
  split.
  - intros y Hy. apply at_col_insert_ne with x; congruence.
  - intros y [= <-] _. congruence.
Qed.

(** Line 74 row by row: the date cell becomes the text of the parsed
    date, every other cell is kept. *)
Lemma normalize_dates_rows cd df j r3 :
  cd ∈ columns df → rect df →
  rows (normalize_dates pd cd df) !! j = Some r3 →
  ∃ r2 d, rows df !! j = Some r2
    ∧ to_datetime pd (get_col df cd) !! j = Some d
    ∧ at_col (columns df) cd r3 = Text (date_str d)
    ∧ ∀ x, x ≠ cd → at_col (columns df) x r3 = at_col (columns df) x r2.
Proof.
  intros [i Hi]%index_is_Some Hrect. unfold normalize_dates, set_col. rewrite Hi. simpl.
  intros (r2 & v & -> & Hr2 & Hv)%lookup_zip_with_Some.
  rewrite list_lookup_fmap in Hv.
  destruct (to_datetime pd (get_col df cd) !! j) as [d|] eqn:Hd; [|done].
  injection Hv as <-. exists r2, d. split_and!; [done|done| |].
  - apply at_col_insert_eq; [done|]. eapply index_lt; eauto using list_elem_of_lookup_2.
  - intros x Hx. by apply at_col_insert_ne with cd.
Qed.


Lemma columns_prepare df c :
  resolved_ok df c → columns (prepare pd c df) = columns df.
Proof.
  intros Hok. unfold prepare, normalize_dates.
  assert (∀ x, col_transcript c = Some x → x ∈ columns df) as Hct
    by (intros x Hx; by apply (ok_transcript _ _ Hok)).
  rewrite columns_set_col; rewrite columns_filter_completed; try done.
  pose proof (ok_columns _ _ Hok) as Hcols. unfold output_columns in Hcols.
  rewrite Forall_forall in Hcols. apply Hcols. in_list.
Qed.
End stages.

(** ** Grouping *)
Section grouping.
Implicit Types (df g : DataFrame) (k : key) (r : row).

Lemma elem_of_group_keys df by1 by2 k :
  k ∈ group_keys df by1 by2
  ↔ ∃ r, r ∈ rows df ∧ key_of (columns df) by1 by2 r = Some k.
Proof.
  unfold group_keys. rewrite merge_sort_Permutation, elem_of_remove_dups.
  rewrite list_elem_of_omap. done.
Qed.




Lemma elem_of_groupby df by1 by2 k g :
  (k, g) ∈ groupby df by1 by2
  ↔ k ∈ group_keys df by1 by2
    ∧ g = where_ (λ r, key_of (columns df) by1 by2 r = Some k) df.
Proof.
  unfold groupby. rewrite list_elem_of_fmap. split.
  - intros (k' & [= <- ->] & Hk). done.
  - intros [Hk ->]. by exists k.
Qed.

(** A group has the labels of the frame and holds exactly its rows with
    the key of the group, in their order; it is not empty. *)
Lemma groupby_group df by1 by2 k g :
  (k, g) ∈ groupby df by1 by2 →
  columns g = columns df
  ∧ rows g = filter (λ r, key_of (columns df) by1 by2 r = Some k) (rows df)
  ∧ rows g ≠ [].
Proof.
  intros [Hk ->]%elem_of_groupby. split_and!; [done|done|].
  apply elem_of_group_keys in Hk as (r & Hr & Hkey). simpl.
  intros Hnil. assert (r ∈ filter (λ r, key_of (columns df) by1 by2 r = Some k) (rows df))
    as Hin by (by apply list_elem_of_filter).
  rewrite Hnil in Hin. by apply elem_of_nil in Hin.
Qed.

Lemma groupby_key_cells df by1 by2 k g r :
  (k, g) ∈ groupby df by1 by2 → r ∈ rows g →
  r ∈ rows df ∧ at_col (columns df) by1 r = k.1 ∧ at_col (columns df) by2 r = k.2.
Proof.
  intros (_ & -> & _)%groupby_group [Hkey Hr]%list_elem_of_filter. split; [done|].
  unfold key_of in Hkey. case_decide; [done|]. by injection Hkey as <-.
Qed.

End grouping.

(** ** The report of a group *)
Section report.
Context (pd : Pandas).
Implicit Types (g : DataFrame) (c : resolved) (r : row).

Lemma series_sum_fillna {A} (h : A → cell) (l : list A) :
  series_sum (map (λ x, fillna0 (to_numeric pd (h x))) l)
  = sum_Z (map (λ x, default 0%Z (to_numeric pd (h x))) l).
Proof. induction l as [|x l IH]; simpl; [done|]. by rewrite IH. Qed.

(** Lines 83-92 in closed form: the six selected columns, one row per
    row of the group with the duration made numeric, and the summary
    row. *)
Lemma report_eq c g :
  NoDup (output_columns c) →
  report pd c g
  = {| columns := output_columns c;
       rows := map (out_row pd c (columns g)) (rows g)
               ++ [total_row (sum_Z (map (duration pd c (columns g)) (rows g)))] |}.
Proof.
  unfold output_columns. intros Hnd.
  destruct c as [ct cn cl cd cu ci ca]; simpl in *.
  apply NoDup_cons in Hnd as [H1 Hnd]. apply NoDup_cons in Hnd as [H2 Hnd].
  apply NoDup_cons in Hnd as [H3 Hnd]. apply NoDup_cons in Hnd as [H4 Hnd].
  apply NoDup_cons in Hnd as [H5 _].
  repeat rewrite not_elem_of_cons in H1. repeat rewrite not_elem_of_cons in H2.
  repeat rewrite not_elem_of_cons in H3. repeat rewrite not_elem_of_cons in H4.
  repeat rewrite not_elem_of_cons in H5.
  destruct H1 as (? & ? & ? & ? & ? & _), H2 as (? & ? & ? & ? & _),
    H3 as (? & ? & ? & _), H4 as (? & ? & _), H5 as (? & _).
  assert (index cu [cn; ci; cl; ca; cu; cd] = Some 4) as Hi.
  { simpl. by rewrite !decide_False, decide_True by done. }
  assert (filter (λ x, x ∉ [cn; ci; cl; ca; cu; cd]) [ci; cu] = []) as Hnew.
  { rewrite !filter_cons, filter_nil.
    rewrite !decide_False; [done| |]; intros Hn; apply Hn; set_solver. }
  unfold report. simpl.
  rewrite (set_col_map _ cu cu 4 (λ v, fillna0 (to_numeric pd v))) by done.
  unfold concat. simpl columns. rewrite Hnew, app_nil_r. f_equal.
  unfold select, get_col. simpl rows. rewrite !map_map. f_equal.
  - apply map_ext. intros r. unfold out_row. simpl.
    generalize (at_col (columns g) cn r) (at_col (columns g) ci r)
      (at_col (columns g) cl r) (at_col (columns g) ca r)
      (at_col (columns g) cu r) (at_col (columns g) cd r).
    intros v1 v2 v3 v4 v5 v6. unfold at_col. simpl.
    repeat (rewrite ?decide_True by done; rewrite ?decide_False by done; simpl).
    done.
  - f_equal. unfold total_row, at_col. simpl.
    repeat (rewrite ?decide_True by done; rewrite ?decide_False by done; simpl).
    do 5 f_equal. rewrite series_sum_fillna. done.
Qed.

End report.

(** ** The loop and the whole run *)
Section run.
Context (pd : Pandas).
Implicit Types (c : resolved) (gs : list (key * DataFrame)) (tr : list event).

(** The loop writes the qualifying groups, in order, and counts them. *)
Lemma for_each_spec c gs n tr :
  for_each pd c gs n tr
  = (tr ++ map (to_excel pd c) (filter qualifies gs),
     inr (n + length (filter qualifies gs))).
Proof.
  revert n tr. induction gs as [|[[learner_id date_str] group] gs IH]; intros n tr; simpl.
  - rewrite app_nil_r, Nat.add_0_r. done.
  - rewrite filter_cons. unfold mbind, io_bind, mret, io_ret, emit.
    destruct (Nat.leb_spec (length (rows group)) 50) as [Hle|Hgt].
    + rewrite decide_False by (unfold qualifies; simpl; lia). apply IH.
    + rewrite decide_True by (unfold qualifies; simpl; lia).
      rewrite IH. simpl. rewrite <-app_assoc. simpl. do 2 f_equal. lia.
Qed.

(** A run whose load or column resolution raises has called [makedirs]
    and nothing else. *)
Lemma process_load_error input_file e tr :
  load pd input_file = inl e →
  process_student_data pd input_file tr = (tr ++ [Makedirs], inl e).
Proof.
  intros H. unfold process_student_data, mbind, io_bind, emit, lift. by rewrite H.
Qed.


(** A run that loads and resolves: [makedirs], then one [to_excel] per
    qualifying group; the count of these calls is returned. *)
Lemma process_ok input_file df c tr :
  load pd input_file = inr df →
  resolve (_normalize_columns df) = inr c →
  let written := filter qualifies (groups_of pd c (_normalize_columns df)) in
  process_student_data pd input_file tr
  = (tr ++ Makedirs :: map (to_excel pd c) written, inr (length written)).
Proof.
  intros H1 H2. unfold process_student_data, mbind, io_bind, emit, lift.
  rewrite H1, H2, for_each_spec. simpl. by rewrite <-app_assoc.
Qed.

Lemma load_rect input_file df : load pd input_file = inr df → rect df.
Proof.
  unfold load. repeat case_bool_decide; [apply read_excel_rect|apply read_csv_rect|done].
Qed.

End run.

(** ** Where a written row comes from *)
Section origin.
Context (pd : Pandas).
Implicit Types (df g : DataFrame) (c : resolved) (r : row).

Lemma resolved_transcript df c x :
  resolved_ok df c → col_transcript c = Some x → x ∈ columns df.
Proof. intros Hok Hx. by apply (ok_transcript _ _ Hok). Qed.

Lemma prepared_row_origin df c r3 :
  rect df → resolved_ok df c → r3 ∈ rows (prepare pd c df) →
  ∃ r1 j d, origin pd c df r1 j d (out_row pd c (columns df) r3).
Proof.
  intros Hrect Hok [j Hj]%list_elem_of_lookup_1.
  pose proof (ok_columns _ _ Hok) as Hcols. pose proof (ok_nodup _ _ Hok) as Hnd.
  pose proof (resolved_transcript df c) as Hct. specialize (λ x, Hct x Hok).
  unfold output_columns in Hcols, Hnd.
  assert (col_date c ∈ columns df) as Hcd
    by (rewrite Forall_forall in Hcols; apply Hcols; in_list).
  unfold prepare in Hj.
  apply normalize_dates_rows in Hj as (r2 & d & Hr2 & Hd & Hdate & Hother).
  2:{ by rewrite columns_filter_completed. }
  2:{ by apply rect_filter_completed. }
  rewrite columns_filter_completed in Hdate, Hother by done.
  destruct (filter_completed_rows (col_transcript c) df r2 Hrect Hct)
    as (r1 & Hr1 & Hsame & Hstatus); [by eapply list_elem_of_lookup_2|].
  assert (∀ x, x ∈ [col_name c; col_title c; col_learner c;
                    col_activity_id c; col_duration c; col_date c] →
               col_transcript c ≠ Some x) as Hne.
  { intros x Hx Heq. by apply (ok_transcript _ _ Hok) in Heq as (_ & _ & []). }
  assert (∀ x, x ∈ [col_name c; col_title c; col_learner c;
                    col_activity_id c; col_duration c] →
               at_col (columns df) x r3 = at_col (columns df) x r1) as Hkeep.
  { intros x Hx. rewrite Hother, Hsame;
      [done|apply Hne; revert Hx; rewrite !elem_of_cons; tauto|].
    intros ->. apply NoDup_app with (l := [_; _; _; _; _]) (k := [_]) in Hnd
      as (_ & Hdisj & _). apply (Hdisj _ Hx). in_list. }
  exists r1, j, d. unfold origin, filtered. split_and!; [done| |done| |].
  - unfold get_col. rewrite list_lookup_fmap, Hr2. simpl.
    rewrite columns_filter_completed by done. f_equal. apply Hsame, Hne. in_list.
  - unfold out_row, duration. rewrite Hdate.
    rewrite !Hkeep by in_list. done.
  - intros ct Hx. apply Hstatus; [done|].
    by apply (ok_transcript _ _ Hok) in Hx as (_ & ? & _).
Qed.

(** Every group of the run holds rows of the prepared frame, under the
    labels of the loaded frame. *)
Lemma group_rows_prepared df c k g r :
  resolved_ok df c → (k, g) ∈ groups_of pd c df → r ∈ rows g →
  columns g = columns df ∧ r ∈ rows (prepare pd c df).
Proof.
  intros Hok Hg Hr. unfold groups_of in Hg.
  pose proof (groupby_key_cells _ _ _ _ _ _ Hg Hr) as [? _].
  apply groupby_group in Hg as (-> & _ & _). split; [|done].
  by apply columns_prepare.
Qed.

(** The rows written for a group, each with its origin. *)
Lemma report_rows_origin df c k g :
  rect df → resolved_ok df c → (k, g) ∈ groups_of pd c df →
  ∃ body total,
    report pd c g = {| columns := output_columns c; rows := body ++ [total] |}
    ∧ body = map (out_row pd c (columns df)) (rows g)
    ∧ total = total_row (sum_Z (map (duration pd c (columns df)) (rows g)))
    ∧ Forall (λ out, ∃ r1 j d, origin pd c df r1 j d out) body.
Proof.
  intros Hrect Hok Hg. eexists _, _. split_and!; [|done|done|].
  - rewrite report_eq by apply Hok.
    destruct (rows g) as [|r rs] eqn:Hrows.
    { by apply groupby_group in Hg as (_ & _ & []). }
    destruct (group_rows_prepared df c k g r Hok Hg) as [-> _];
      [rewrite Hrows; apply list_elem_of_here|done].
  - apply Forall_forall. intros out (r3 & -> & Hr3)%list_elem_of_fmap.
    destruct (group_rows_prepared df c k g r3 Hok Hg Hr3) as [_ Hprep].
    by apply prepared_row_origin.
Qed.
End origin.

(** ** The contract of the run *)
Section contract.
Context (pd : Pandas).
Implicit Types (df g : DataFrame) (c : resolved).




End contract.

(** ** One call per qualifying group *)
Section threshold.
Context (pd : Pandas).
Implicit Types (df g : DataFrame) (c : resolved) (k : key).





End threshold.

(** ** The content of the reports *)
Section reports.
Context (pd : Pandas).
Implicit Types (df g : DataFrame) (c : resolved) (k : key).


(** The calls of a run are the reports of its qualifying groups. *)
Lemma process_event input_file df c f data :
  load pd input_file = inr df →
  resolve (_normalize_columns df) = inr c →
  ToExcel f data ∈ (process_student_data pd input_file []).1 →
  ∃ k g, (k, g) ∈ groups_of pd c (_normalize_columns df)
    ∧ 50 < length (rows g)
    ∧ f = filename k.1 k.2 ∧ data = report pd c g.
Proof.
  intros H1 H2. rewrite (process_ok pd _ df c [] H1 H2). simpl.
  intros [[=]|([k g] & [= -> ->] & [Hq Hg]%list_elem_of_filter)%list_elem_of_fmap]%elem_of_cons.
  by exists k, g.
Qed.



Lemma resolve_transcript df c :
  resolve df = inr c → find_transcript df = inr (col_transcript c).
Proof.
  unfold resolve. destruct (find_transcript df) as [|ct]; [discriminate|].
  cbv [mret mbind result_ret result_bind].
  repeat (destruct (_find_col df _); [discriminate|]). by intros [= <-].
Qed.

(** The rows of a written report, each with its origin. *)
Lemma process_event_origin input_file df c f data :
  load pd input_file = inr df →
  resolve (_normalize_columns df) = inr c →
  ToExcel f data ∈ (process_student_data pd input_file []).1 →
  ∃ body total,
    data = {| columns := output_columns c; rows := body ++ [total] |}
    ∧ Forall (λ out, ∃ r1 j d, origin pd c (_normalize_columns df) r1 j d out) body.
Proof.
  intros H1 H2 Hev. pose proof (resolve_ok _ _ H2) as Hok.
  destruct (process_event _ _ _ _ _ H1 H2 Hev) as (k & g & Hg & _ & _ & ->).
  destruct (report_rows_origin pd (_normalize_columns df) c k g)
    as (body & total & -> & _ & _ & Hall); [|done|done|by eauto].
  by apply rect_normalize_columns, (load_rect pd input_file).
Qed.

(** C6. Resolving the status column never raises; when no column
    resolves, the filter returns the table unchanged.  When a status
    column is resolved, every row before the TOTAL row of every written
    report comes from a loaded row whose status, trimmed and lower-cased,
    is ["completed"]. *)
Theorem C6_only_completed input_file df c :
  load pd input_file = inr df →
  resolve (_normalize_columns df) = inr c →
  let ndf := _normalize_columns df in
  (∀ df', ∃ o, find_transcript df' = inr o)
  ∧ (col_transcript c = None ↔ ∃ e, _find_col ndf ["Transcript status"] = inl e)
  ∧ (col_transcript c = None → filtered c ndf = ndf)
  ∧ ∀ ct f data,
      col_transcript c = Some ct →
      ToExcel f data ∈ (process_student_data pd input_file []).1 →
      ∃ body total,
        rows data = body ++ [total]
        ∧ Forall (λ out, ∃ r1 j d,
            origin pd c ndf r1 j d out
            ∧ r1 ∈ rows df
            ∧ Str.lower (Str.strip (str (at_col (columns ndf) ct r1))) = "completed")
            body.
Proof.
  intros H1 H2 ndf. split_and!.
  - apply find_transcript_total.
  - rewrite <-find_transcript_None. apply resolve_transcript in H2.
    fold ndf in H2. rewrite H2. split; congruence.
  - unfold filtered. by intros ->.
  - intros ct f data Hct Hev.
    destruct (process_event_origin _ _ _ _ _ H1 H2 Hev) as (body & total & -> & Hall).
    exists body, total. split; [done|].
    eapply Forall_impl; [exact Hall|]. simpl.
    intros out (r1 & j & d & Horigin). exists r1, j, d. split; [done|].
    destruct Horigin as (Hr1 & _ & _ & _ & Hstatus). split; [done|].
    rewrite <-strip_lower. by apply Hstatus.
Qed.

End reports.

(** ** Resolution and loading, as specified *)
Section resolution.

Lemma last_lower_NoDup cols c :
  NoDup (map Str.lower cols) → c ∈ cols → last_lower cols (Str.lower c) = Some c.
Proof.
  intros Hnd Hin. destruct (last_lower_is_Some cols c Hin) as [c' Hc'].
  rewrite Hc'. f_equal. apply last_lower_Some in Hc' as [Hin' Heq].
  clear -Hnd Hin Hin' Heq. induction cols as [|x cols IH]; [by apply elem_of_nil in Hin|].
  simpl in Hnd. apply NoDup_cons in Hnd as [Hx Hnd].
  apply elem_of_cons in Hin as [->|Hin], Hin' as [->|Hin']; [done| | |by apply IH].
  - destruct Hx. rewrite <-Heq. by apply list_elem_of_fmap_2.
  - destruct Hx. rewrite Heq. by apply list_elem_of_fmap_2.
Qed.

(** C5, as the code has it. [_find_col] is the two-pass [resolution]: an
    exact match up to case in candidate order, then, only if no candidate
    matched, the first column in table order that a candidate equals up to
    case and whitespace; in both passes the column returned is the last
    one with the lower-cased label of the match, which is the match itself
    when no two labels differ only by case; with no match in either pass
    it raises with the candidates and the columns.  The three spellings of
    the learner header resolve. *)
Theorem C5_two_pass_resolution :
  (∀ df candidates, _find_col df candidates = resolution (columns df) candidates)
  ∧ (∀ cols c, NoDup (map Str.lower cols) → c ∈ cols →
       last_lower cols (Str.lower c) = Some c)
  ∧ (∀ h rs, h ∈ ["learner - id"; "Learner -ID"; "Learner - ID"] →
       _find_col {| columns := [h]; rows := rs |} ["Learner - ID"] = inr h).
Proof.
  split_and!.
  - apply find_col_resolution.
  - apply last_lower_NoDup.
  - intros h rs Hh. repeat (apply elem_of_cons in Hh as [->|Hh]); [done..|].
    by apply elem_of_nil in Hh.
Qed.

(** With two labels that differ only by case the fallback returns the
    second one. *)
Lemma C5_first_column_does_not_win : ¬ first_matching_column_wins.
Proof.
  intros Hclaim.
  destruct (Hclaim {| columns := ["Learner -ID"; "LEARNER -ID"]; rows := [] |}
              ["Learner - ID"] "LEARNER -ID") as [i Hi]; [done..|].
  vm_compute in Hi. discriminate.
Qed.

Lemma load_unsupported pd input_file :
  ¬ supported input_file → load pd input_file = inl (ValueError UnsupportedFileType).
Proof.
  unfold supported, load. rewrite !elem_of_cons. intros Hn.
  rewrite bool_decide_eq_false_2 by (rewrite !elem_of_cons; tauto).
  rewrite bool_decide_eq_false_2 by tauto. done.
Qed.

(** C7, as the code has it. For an input path whose extension is not
    [.xlsx], [.xls] or [.csv] in any case, the run raises the [ValueError]
    for an unsupported file type after [makedirs] and before anything is
    read or written: an absent output directory has been created, empty,
    and an existing one is unchanged. *)
Theorem C7_unsupported pd input_file :
  ¬ supported input_file →
  process_student_data pd input_file [] = ([Makedirs], inl (ValueError UnsupportedFileType))
  ∧ run [Makedirs] None = Some ∅
  ∧ ∀ files, run [Makedirs] (Some files) = Some files.
Proof.
  intros Hn. split_and!; [|done..].
  exact (process_load_error pd _ _ [] (load_unsupported pd _ Hn)).
Qed.

(** A [.txt] input creates the output directory before it raises. *)
Lemma C7_directory_is_created : ¬ unsupported_leaves_directory.
Proof.
  intros Hclaim.
  assert (¬ supported "notes.txt") as Hn by (apply (bool_decide_unpack _); by vm_compute).
  specialize (Hclaim (Demo.pandas []) "notes.txt" None Hn).
  rewrite (process_load_error _ _ _ [] (load_unsupported _ _ Hn)) in Hclaim.
  discriminate Hclaim.
Qed.
End resolution.

(** ** Runs on concrete files *)
Section examples.
Let pd := Demo.pandas Demo.files.

Example run_burst :
  process_student_data pd "burst.csv" []
  = ([Makedirs; ToExcel "learner_L1_2024-01-05.xlsx" Demo.burst_L1_report], inr 1).
Proof. vm_compute. reflexivity. Qed.

Example run_empty : process_student_data pd "empty.csv" [] = ([Makedirs], inr 0).
Proof. vm_compute. reflexivity. Qed.

(** One file for the sixty rows of L1, with a total of 120. *)
Example run_scenario :
  let '(evs, res) := process_student_data pd "scenario.CSV" [] in
  res = inr 1
  ∧ omap event_filename evs = ["learner_L1_2024-01-05.xlsx"]
  ∧ ∃ data, run evs None = Some {[ "learner_L1_2024-01-05.xlsx" := data ]}
      ∧ last (rows data) = Some (total_row 120).
Proof. vm_compute. split_and!; [done..|]. eexists. split; reflexivity. Qed.

(** C3, at a concrete input. The module docstring lists five output
    columns; the written report has six, the learner name first. *)
Lemma C3_report_has_six_columns :
  omap event_columns (process_student_data pd "burst.csv" []).1
  = [["Learner - Name"; "Learning activity - Title"; "learner -id";
      "Learning activity - ID"; "Learning activity - Duration"; "Completion Date"]].
Proof. vm_compute. reflexivity. Qed.

(** C8, at a concrete input. The colon of a learner id is kept in the
    file name: only the date component has its colons replaced. *)
Lemma C8_colon_in_learner_is_kept :
  omap event_filename (process_student_data pd "colon.csv" []).1
  = ["learner_a:b_2024-01-05.xlsx"]
  ∧ filename (Text "a:b") (Text "10:30") = "learner_a:b_10-30.xlsx".
Proof. split; vm_compute; reflexivity. Qed.

(** C9, at a concrete input. Two qualifying groups are written to one
    file name: the run returns 2 and the directory holds one file. *)
Lemma C9_two_groups_one_file :
  let '(evs, res) := process_student_data pd "twins.xlsx" [] in
  res = inr 2
  ∧ omap event_filename evs = ["learner_a_b_2024-01-05.xlsx"; "learner_a_b_2024-01-05.xlsx"]
  ∧ (groups_of pd Demo.bound (_normalize_columns Demo.twins)).*1
    = [(Text "a b", Text Demo.day); (Text "a_b", Text Demo.day)]
  ∧ size <$> run evs None = Some 1.
Proof. vm_compute. done. Qed.
End examples.

(** ** The theorems at concrete inputs *)
Section witnesses.
Let pd := Demo.pandas Demo.files.
Let call := ToExcel "learner_L1_2024-01-05.xlsx" Demo.burst_L1_report.

Ltac compute_eq := vm_compute; reflexivity.
Ltac compute_dec := apply (bool_decide_unpack _); vm_compute; exact I.




Lemma C6_only_completed_witness :
  load pd "burst.csv" = inr Demo.burst
  ∧ resolve (_normalize_columns Demo.burst) = inr Demo.bound
  ∧ call ∈ (process_student_data pd "burst.csv" []).1
  ∧ ∃ body total,
      rows Demo.burst_L1_report = body ++ [total]
      ∧ Forall (λ out, ∃ r1,
          r1 ∈ rows Demo.burst
          ∧ Str.lower (Str.strip (str (at_col (map Str.strip Demo.header)
                                         "Transcript Status" r1))) = "completed")
          body.
Proof.
  assert (load pd "burst.csv" = inr Demo.burst) as H1 by compute_eq.
  assert (resolve (_normalize_columns Demo.burst) = inr Demo.bound) as H2 by compute_eq.
  assert (call ∈ (process_student_data pd "burst.csv" []).1) as H3 by compute_dec.
  split_and!; [done|done|done|].
  destruct (C6_only_completed pd "burst.csv" Demo.burst Demo.bound H1 H2)
    as (_ & _ & _ & H).
  destruct (H "Transcript Status" _ _ eq_refl H3) as (body & total & Hrows & Hall).
  exists body, total. split; [done|].
  eapply Forall_impl; [exact Hall|]. simpl. intros out (r1 & _ & _ & _ & ? & ?). eauto.
Defined.


Lemma C7_unsupported_witness :
  ¬ supported "notes.txt"
  ∧ process_student_data pd "notes.txt" []
    = ([Makedirs], inl (ValueError UnsupportedFileType)).
Proof.
  assert (¬ supported "notes.txt") as Hn by compute_dec.
  split; [done|]. by apply (C7_unsupported pd "notes.txt" Hn).
Defined.

Lemma C5_two_pass_resolution_witness :
  _find_col {| columns := ["Name"; "Learner -ID"]; rows := [] |} ["learner id"; "Learner - ID"]
  = resolution ["Name"; "Learner -ID"] ["learner id"; "Learner - ID"]
  ∧ last_lower ["Name"; "Learner -ID"] (Str.lower "Learner -ID") = Some "Learner -ID"
  ∧ _find_col {| columns := ["Learner -ID"]; rows := [] |} ["Learner - ID"]
    = inr "Learner -ID".
Proof.
  destruct C5_two_pass_resolution as (H1 & H2 & H3). split_and!.
  - apply H1.
  - apply H2; [compute_dec|compute_dec].
  - apply H3. compute_dec.
Defined.
End witnesses.
